(** * The packaging manifest of the smd-service importer

    The repository's only source file is
    [data-services/smd-service/src/setup.py]: one import and one call of
    setuptools' [setup].  This development embeds

    - the text of the file, line by line ([Source]);
    - its syntax tree ([Ast], [setup_py]), tied to the text by a lexer
      ([Lexer]) and an unparser to tokens ([Unparse]);
    - what the call does: keyword arguments are evaluated ([Evaluate]), package
      discovery filters the directories it walks with shell patterns
      ([Fnmatch], [Finder]), console entry points are parsed
      ([EntryPoints]), and the language requirement is a version specifier
      ([Specifier]).

    [Fnmatch], [Finder], [EntryPoints] and [Specifier] describe the library
    functions the manifest calls (Python's [fnmatch], setuptools'
    [find_packages] and entry points, the version specifiers of the
    packaging tools); the manifest itself contributes their arguments. *)

From Stdlib Require Import String Ascii List Bool Arith ZArith Lia.
Import ListNotations.
Open Scope string_scope.
Open Scope list_scope.
Set Warnings "-register-all".

(** ** The text of setup.py *)

Module Source.

Definition lines : list string :=
  [ "from setuptools import setup, find_packages"
  ; ""
  ; "setup("
  ; "    name = 'importer',"
  ; "    version = '0.1.0',"
  ; "    python_requires = '>=3',"
  ; "    packages = find_packages("
  ; "        exclude = ['docs','tests*']"
  ; "    ),"
  ; "    entry_points = {"
  ; "        'console_scripts': ["
  ; "            'glueservice = glueservice.__main__:main'"
  ; "        ]"
  ; "    },"
  ; "    author = 'Marco Peise',"
  ; "    author_email = 'mp@ise.tu-berlin.de',"
  ; "    license = 'MIT License'"
  ; ")" ].

Definition newline : ascii := ascii_of_nat 10.

(** The file as one string; its last line has no line terminator. *)
Definition text : string := String.concat (String newline "") lines.

End Source.

(** ** Syntax trees *)

Module Ast.

Inductive constant : Type :=
| CStr (s : string)
| CInt (n : Z)
| CBool (b : bool)
| CNone.

Inductive expr : Type :=
| Constant (c : constant)
| Name (id : string)
| Attribute (value : expr) (attr : string)
| Subscript (value : expr) (index : expr)
| ListDisplay (elts : list expr)
| DictDisplay (items : list (expr * expr))
| Call (func : expr) (args : list expr) (keywords : list (string * expr)).

Inductive stmt : Type :=
| Import (modules : list string)
| ImportFrom (module : string) (names : list string)
| Expr (value : expr)
| Assign (target : expr) (value : expr)
| FunctionDef (name : string) (params : list string) (body : list stmt)
| ClassDef (name : string) (body : list stmt)
| If (test : expr) (body : list stmt) (orelse : list stmt)
| For (target : expr) (iter : expr) (body : list stmt)
| While (test : expr) (body : list stmt)
| Try (body : list stmt) (handler : list stmt).

Definition Str (s : string) : expr := Constant (CStr s).

End Ast.
Import Ast.

(** The manifest, as the parser sees it. *)
Definition setup_keywords : list (string * expr) :=
  [ ("name", Str "importer")
  ; ("version", Str "0.1.0")
  ; ("python_requires", Str ">=3")
  ; ("packages",
      Call (Name "find_packages") []
        [ ("exclude", ListDisplay [Str "docs"; Str "tests*"]) ])
  ; ("entry_points",
      DictDisplay
        [ (Str "console_scripts",
           ListDisplay [Str "glueservice = glueservice.__main__:main"]) ])
  ; ("author", Str "Marco Peise")
  ; ("author_email", Str "mp@ise.tu-berlin.de")
  ; ("license", Str "MIT License") ].

Definition setup_call : expr := Call (Name "setup") [] setup_keywords.

Definition setup_py : list stmt :=
  [ ImportFrom "setuptools" ["setup"; "find_packages"]
  ; Expr setup_call ].

(** ** Tokens: from the text, and from the tree *)

Module Lexer.

Inductive token : Type :=
| NAME (s : string)
| STRING (s : string)
| NUMBER (n : Z)
| OP (c : ascii)
| NEWLINE
| INDENT
| DEDENT.

Inductive mode : Type :=
| Idle
| InName (acc : string)
| InString (acc : string).

Definition between (lo hi : nat) (c : ascii) : bool :=
  ((lo <=? nat_of_ascii c) && (nat_of_ascii c <=? hi))%nat.

Definition is_letter (c : ascii) : bool :=
  between 65 90 c || between 97 122 c || Ascii.eqb c "_".

Definition is_digit (c : ascii) : bool := between 48 57 c.

Definition is_name_char (c : ascii) : bool := is_letter c || is_digit c.

Definition one_of (cs : string) (c : ascii) : bool :=
  existsb (Ascii.eqb c) (list_ascii_of_string cs).

Definition snoc (acc : string) (c : ascii) : string := (acc ++ String c "")%string.

(** What a character does when no token is open: the tokens it completes,
    the mode it leaves the lexer in, the bracket depth and whether the
    logical line is still empty.  Line ends inside brackets are skipped; a
    blank line gives no token.  Only the lexical forms of a manifest are
    covered: names, single-quoted strings without escapes, brackets and
    the delimiters [, : = .]; indentation of a statement, numbers and
    anything else give [None]. *)
Definition idle (c : ascii) (depth : nat) (fresh : bool)
  : option (list token * mode * nat * bool) :=
  if is_letter c then Some ([], InName (String c ""), depth, false)
  else if Ascii.eqb c "'" then Some ([], InString "", depth, false)
  else if one_of "([{" c then Some ([OP c], Idle, S depth, false)
  else if one_of ")]}" c then
    match depth with
    | O => None
    | S d => Some ([OP c], Idle, d, false)
    end
  else if one_of ",:=." c then Some ([OP c], Idle, depth, false)
  else if Ascii.eqb c " " then
    if (depth =? 0)%nat && fresh then None else Some ([], Idle, depth, fresh)
  else if Ascii.eqb c Source.newline then
    if (depth =? 0)%nat && negb fresh then Some ([NEWLINE], Idle, depth, true)
    else Some ([], Idle, depth, fresh)
  else None.

Fixpoint lex (m : mode) (depth : nat) (fresh : bool) (s : string)
  : option (list token) :=
  match s with
  | EmptyString =>
      if (depth =? 0)%nat then
        match m with
        | Idle => Some (if fresh then [] else [NEWLINE])
        | InName a => Some [NAME a; NEWLINE]
        | InString _ => None
        end
      else None
  | String c rest =>
      match m with
      | InString a =>
          if Ascii.eqb c "'" then
            option_map (cons (STRING a)) (lex Idle depth fresh rest)
          else if Ascii.eqb c "\" || Ascii.eqb c Source.newline then None
          else lex (InString (snoc a c)) depth fresh rest
      | InName a =>
          if is_name_char c then lex (InName (snoc a c)) depth fresh rest
          else
            match idle c depth fresh with
            | Some (ts, m', depth', fresh') =>
                option_map (fun r => NAME a :: ts ++ r)
                           (lex m' depth' fresh' rest)
            | None => None
            end
      | Idle =>
          match idle c depth fresh with
          | Some (ts, m', depth', fresh') =>
              option_map (app ts) (lex m' depth' fresh' rest)
          | None => None
          end
      end
  end.

Definition tokenize (s : string) : option (list token) := lex Idle 0 true s.

End Lexer.

Module Unparse.
Import Lexer.

Fixpoint commas (parts : list (list token)) : list token :=
  match parts with
  | [] => []
  | [p] => p
  | p :: rest => p ++ OP "," :: commas rest
  end.

Definition constant_tokens (c : constant) : list token :=
  match c with
  | CStr s => [STRING s]
  | CInt n => [NUMBER n]
  | CBool true => [NAME "True"]
  | CBool false => [NAME "False"]
  | CNone => [NAME "None"]
  end.

Fixpoint expr_tokens (e : expr) : list token :=
  match e with
  | Constant c => constant_tokens c
  | Name id => [NAME id]
  | Attribute v a => expr_tokens v ++ [OP "."; NAME a]
  | Subscript v i => expr_tokens v ++ OP "[" :: expr_tokens i ++ [OP "]"]
  | ListDisplay es => OP "[" :: commas (map expr_tokens es) ++ [OP "]"]
  | DictDisplay items =>
      OP "{"
      :: commas (map (fun kv => expr_tokens (fst kv) ++ OP ":" :: expr_tokens (snd kv))
                     items)
      ++ [OP "}"]
  | Call f args kws =>
      expr_tokens f
      ++ OP "("
      :: commas (map expr_tokens args
                 ++ map (fun kv => NAME (fst kv) :: OP "=" :: expr_tokens (snd kv)) kws)
      ++ [OP ")"]
  end.

Definition names_tokens (names : list string) : list token :=
  commas (map (fun n => [NAME n]) names).

Fixpoint stmt_tokens (s : stmt) : list token :=
  let block (body : list stmt) :=
    OP ":" :: NEWLINE :: INDENT :: flat_map stmt_tokens body ++ [DEDENT] in
  match s with
  | Import ms => NAME "import" :: names_tokens ms ++ [NEWLINE]
  | ImportFrom m names =>
      NAME "from" :: NAME m :: NAME "import" :: names_tokens names ++ [NEWLINE]
  | Expr e => expr_tokens e ++ [NEWLINE]
  | Assign t v => expr_tokens t ++ OP "=" :: expr_tokens v ++ [NEWLINE]
  | FunctionDef f ps body =>
      NAME "def" :: NAME f :: OP "(" :: names_tokens ps ++ OP ")" :: block body
  | ClassDef c body => NAME "class" :: NAME c :: block body
  | If t body orelse =>
      NAME "if" :: expr_tokens t ++ block body
      ++ match orelse with
         | [] => []
         | _ => NAME "else" :: block orelse
         end
  | For t it body =>
      NAME "for" :: expr_tokens t ++ NAME "in" :: expr_tokens it ++ block body
  | While t body => NAME "while" :: expr_tokens t ++ block body
  | Try body handler =>
      NAME "try" :: block body ++ NAME "except" :: block handler
  end.

Definition module_tokens (m : list stmt) : list token := flat_map stmt_tokens m.

End Unparse.

(** ** Shell patterns: Python's fnmatch *)

Module Fnmatch.

Inductive item : Type :=
| Star
| AnyChar
| Lit (c : ascii).

(** [translate]: [*] matches any run of characters, consecutive stars
    count as one, [?] matches one character, any other character matches
    itself.  Bracket expressions are left out: a pattern with an opening
    bracket has no translation here. *)
Fixpoint translate (pat : string) : option (list item) :=
  match pat with
  | EmptyString => Some []
  | String c rest =>
      match translate rest with
      | None => None
      | Some r =>
          if Ascii.eqb c "*" then
            Some match r with
                 | Star :: _ => r
                 | _ => Star :: r
                 end
          else if Ascii.eqb c "?" then Some (AnyChar :: r)
          else if Ascii.eqb c "[" then None
          else Some (Lit c :: r)
      end
  end.

(** The whole name must match (the translated expression is anchored at
    both ends), and a star also matches dots and line ends. *)
Fixpoint matches (p : list item) (name : string) {struct p} : bool :=
  match p with
  | [] =>
      match name with
      | EmptyString => true
      | String _ _ => false
      end
  | Lit c :: p' =>
      match name with
      | EmptyString => false
      | String d rest => Ascii.eqb c d && matches p' rest
      end
  | AnyChar :: p' =>
      match name with
      | EmptyString => false
      | String _ rest => matches p' rest
      end
  | Star :: p' =>
      (fix star (s : string) : bool :=
         matches p' s
         || match s with
            | EmptyString => false
            | String _ rest => star rest
            end) name
  end.

Definition fnmatchcase (name pat : string) : option bool :=
  option_map (fun p => matches p name) (translate pat).

End Fnmatch.

(** ** Package discovery: setuptools' find_packages *)

Module Finder.

(** A directory: its name, whether it holds an [__init__.py], and its
    subdirectories in the order the walk lists them. *)
Inductive dir : Type :=
| Dir (name : string) (has_init : bool) (subdirs : list dir).

(** Induction on directories, with the hypothesis for every subdirectory. *)
Section DirInduction.

Variable P : dir -> Prop.
Hypothesis step : forall n i subs, Forall P subs -> P (Dir n i subs).

Fixpoint dir_induction (d : dir) : P d :=
  match d with
  | Dir n i subs =>
      step n i subs
        ((fix all (l : list dir) : Forall P l :=
            match l with
            | [] => Forall_nil P
            | c :: rest => Forall_cons c (dir_induction c) (all rest)
            end) subs)
  end.

End DirInduction.

Definition dir_name (d : dir) : string := let 'Dir n _ _ := d in n.
Definition has_init (d : dir) : bool := let 'Dir _ i _ := d in i.

Definition has_dot (s : string) : bool :=
  existsb (Ascii.eqb ".") (list_ascii_of_string s).

(** A directory is a package, and is searched further, when its name has
    no dot and it holds an [__init__.py]. *)
Definition looks_like_package (d : dir) : bool :=
  negb (has_dot (dir_name d)) && has_init d.

Definition qualify (prefix name : string) : string :=
  match prefix with
  | EmptyString => name
  | _ => (prefix ++ "." ++ name)%string
  end.

(** [_build_filter] of a pattern list: true of a name that matches at least one
    of the patterns. *)
Fixpoint build_filter (patterns : list string) : option (string -> bool) :=
  match patterns with
  | [] => Some (fun _ => false)
  | pat :: rest =>
      match Fnmatch.translate pat, build_filter rest with
      | Some p, Some f => Some (fun name => Fnmatch.matches p name || f name)
      | _, _ => None
      end
  end.

Section Walk.

(** [keep package]: [include(package) and not exclude(package)]. *)
Variable keep : string -> bool.

(** The top-down walk: the packages of one directory are yielded first,
    then each package directory is walked in turn, also when the package
    itself was not kept. *)
Fixpoint walk (prefix : string) (d : dir) : list string :=
  let 'Dir _ _ subs := d in
  filter keep
    (map (fun c => qualify prefix (dir_name c)) (filter looks_like_package subs))
  ++ flat_map
       (fun c =>
          if looks_like_package c then walk (qualify prefix (dir_name c)) c
          else [])
       subs.

End Walk.

(** Every package under the root, before any filter. *)
Definition discovered (root : dir) : list string :=
  walk (fun _ => true) "" root.

(** [find_packages(exclude=..., include=...)] from the root directory.
    [always_excluded] is the filter of the names the library leaves out on
    its own account, whatever the caller passes. *)
Definition find_packages
    (always_excluded : string -> bool) (exclude include : list string)
    (root : dir) : option (list string) :=
  match build_filter exclude, build_filter include with
  | Some ex, Some inc =>
      Some (walk (fun p => inc p && negb (always_excluded p || ex p)) "" root)
  | _, _ => None
  end.

Definition default_include : list string := ["*"].

End Finder.

(** ** Evaluating the keyword arguments *)

Module Evaluate.

Inductive value : Type :=
| VStr (s : string)
| VInt (n : Z)
| VBool (b : bool)
| VNone
| VList (elts : list value)
| VDict (items : list (value * value)).

(** What a build sees besides the manifest: the directory it runs in and
    the library's own exclusions. *)
Record world : Type :=
  { root : Finder.dir
  ; always_excluded : string -> bool }.

Fixpoint sequence {A : Type} (l : list (option A)) : option (list A) :=
  match l with
  | [] => Some []
  | None :: _ => None
  | Some a :: rest => option_map (cons a) (sequence rest)
  end.

Fixpoint assoc {A : Type} (k : string) (l : list (string * A)) : option A :=
  match l with
  | [] => None
  | (k', v) :: rest => if String.eqb k k' then Some v else assoc k rest
  end.

Definition as_string (v : value) : option string :=
  match v with
  | VStr s => Some s
  | _ => None
  end.

Definition as_strings (v : value) : option (list string) :=
  match v with
  | VList elts => sequence (map as_string elts)
  | _ => None
  end.

Definition constant_value (c : constant) : value :=
  match c with
  | CStr s => VStr s
  | CInt n => VInt n
  | CBool b => VBool b
  | CNone => VNone
  end.

(** A call of [find_packages] with keyword arguments: only [exclude] and [include] are
    covered; the walk starts in the build directory. *)
Definition call_find_packages (w : world) (kws : list (string * value))
  : option value :=
  if forallb (fun kv => String.eqb (fst kv) "exclude" || String.eqb (fst kv) "include") kws
  then
    let strings_or (k : string) (default : list string) :=
      match assoc k kws with
      | None => Some default
      | Some v => as_strings v
      end in
    match strings_or "exclude" [], strings_or "include" Finder.default_include with
    | Some ex, Some inc =>
        option_map (fun ps => VList (map VStr ps))
                   (Finder.find_packages (always_excluded w) ex inc (root w))
    | _, _ => None
    end
  else None.

(** Expressions of a manifest: constants, displays, and calls of the
    imported [find_packages].  [bound] lists the imported names. *)
Fixpoint eval (w : world) (bound : list string) (e : expr) : option value :=
  match e with
  | Constant c => Some (constant_value c)
  | ListDisplay es => option_map VList (sequence (map (eval w bound) es))
  | DictDisplay items =>
      option_map VDict
        (sequence
           (map (fun kv =>
                   match eval w bound (fst kv), eval w bound (snd kv) with
                   | Some k, Some v => Some (k, v)
                   | _, _ => None
                   end)
                items))
  | Call (Name f) [] kws =>
      if String.eqb f "find_packages" && existsb (String.eqb f) bound then
        match sequence
                (map (fun kv => option_map (pair (fst kv)) (eval w bound (snd kv)))
                     kws)
        with
        | Some vs => call_find_packages w vs
        | None => None
        end
      else None
  | _ => None
  end.

Definition eval_keywords (w : world) (bound : list string)
    (kws : list (string * expr)) : option (list (string * value)) :=
  sequence (map (fun kv => option_map (pair (fst kv)) (eval w bound (snd kv))) kws).

End Evaluate.

(** ** The setup call and the run of the manifest *)

Module Setup.
Import Evaluate.

(** What [setup] records of its keyword arguments. *)
Record descriptor : Type :=
  { name : option string
  ; version : option string
  ; python_requires : option string
  ; packages : option (list string)
  ; entry_points : option (list (string * list string))
  ; author : option string
  ; author_email : option string
  ; license : option string }.

Definition bind {A B : Type} (m : option A) (k : A -> option B) : option B :=
  match m with
  | Some a => k a
  | None => None
  end.

Notation "x <- m ;; k" := (bind m (fun x => k))
  (at level 61, m at next level, right associativity).

(** An argument that may be absent; when present it must have the shape
    [read] accepts. *)
Definition optional {A : Type} (read : value -> option A) (v : option value)
  : option (option A) :=
  match v with
  | None => Some None
  | Some x => option_map Some (read x)
  end.

Definition as_group (kv : value * value) : option (string * list string) :=
  g <- as_string (fst kv) ;;
  specs <- as_strings (snd kv) ;;
  Some (g, specs).

Definition as_entry_points (v : value) : option (list (string * list string)) :=
  match v with
  | VDict items => sequence (map as_group items)
  | _ => None
  end.

Definition setup (kws : list (string * value)) : option descriptor :=
  n <- optional as_string (assoc "name" kws) ;;
  v <- optional as_string (assoc "version" kws) ;;
  r <- optional as_string (assoc "python_requires" kws) ;;
  p <- optional as_strings (assoc "packages" kws) ;;
  e <- optional as_entry_points (assoc "entry_points" kws) ;;
  a <- optional as_string (assoc "author" kws) ;;
  m <- optional as_string (assoc "author_email" kws) ;;
  l <- optional as_string (assoc "license" kws) ;;
  Some {| name := n; version := v; python_requires := r; packages := p;
          entry_points := e; author := a; author_email := m; license := l |}.

(** Running a module: the names imported so far and the descriptors the
    setup calls produced.  Statements other than an import from
    setuptools and a call of the imported [setup] are not covered. *)
Record state : Type :=
  { bound : list string
  ; produced : list descriptor }.

Definition initial : state := {| bound := []; produced := [] |}.

Definition exports (n : string) : bool :=
  String.eqb n "setup" || String.eqb n "find_packages".

Definition exec (w : world) (st : state) (s : stmt) : option state :=
  match s with
  | ImportFrom m names =>
      if String.eqb m "setuptools" && forallb exports names then
        Some {| bound := bound st ++ names; produced := produced st |}
      else None
  | Expr (Call (Name f) [] kws) =>
      if String.eqb f "setup" && existsb (String.eqb f) (bound st) then
        vs <- eval_keywords w (bound st) kws ;;
        d <- setup vs ;;
        Some {| bound := bound st; produced := produced st ++ [d] |}
      else None
  | _ => None
  end.

Fixpoint exec_all (w : world) (st : state) (m : list stmt) : option state :=
  match m with
  | [] => Some st
  | s :: rest => st' <- exec w st s ;; exec_all w st' rest
  end.

Definition run (w : world) (m : list stmt) : option (list descriptor) :=
  option_map produced (exec_all w initial m).

End Setup.

(** ** Console entry points *)

Module EntryPoints.

Record entry_point : Type :=
  { command : string
  ; module : string
  ; attr : option string }.

Definition is_space (c : ascii) : bool :=
  Ascii.eqb c " " || Lexer.between 9 13 c.

Fixpoint lstrip (s : string) : string :=
  match s with
  | EmptyString => EmptyString
  | String c rest => if is_space c then lstrip rest else s
  end.

Fixpoint rstrip (s : string) : string :=
  match s with
  | EmptyString => EmptyString
  | String c rest =>
      match rstrip rest with
      | EmptyString => if is_space c then EmptyString else String c EmptyString
      | r => String c r
      end
  end.

Definition strip (s : string) : string := rstrip (lstrip s).

(** The text before and after the first [sep]. *)
Fixpoint partition (sep : ascii) (s : string) : option (string * string) :=
  match s with
  | EmptyString => None
  | String c rest =>
      if Ascii.eqb c sep then Some (EmptyString, rest)
      else option_map (fun lr => (String c (fst lr), snd lr)) (partition sep rest)
  end.

(** A dotted name: one or more letters, digits, underscores and dots. *)
Definition is_dotted (s : string) : bool :=
  negb (String.eqb s "")
  && forallb (fun c => Lexer.is_name_char c || Ascii.eqb c ".")
             (list_ascii_of_string s).

(** [name = module:attr], with optional blanks around the parts; the
    name ends at the first equals sign.  Extras in brackets are not
    covered. *)
Definition parse (spec : string) : option entry_point :=
  match partition "=" spec with
  | None => None
  | Some (l, r) =>
      let n := strip l in
      if String.eqb n "" then None
      else
        match partition ":" r with
        | None =>
            let m := strip r in
            if is_dotted m then Some {| command := n; module := m; attr := None |}
            else None
        | Some (m, a) =>
            let m := strip m in
            let a := strip a in
            if is_dotted m && is_dotted a then
              Some {| command := n; module := m; attr := Some a |}
            else None
        end
  end.

(** The commands an installer creates for a descriptor: the parsed
    entries of its console_scripts group. *)
Definition console_scripts (d : Setup.descriptor) : option (list entry_point) :=
  match Setup.entry_points d with
  | None => Some []
  | Some groups =>
      match Evaluate.assoc "console_scripts" groups with
      | None => Some []
      | Some specs => Evaluate.sequence (map parse specs)
      end
  end.

End EntryPoints.

(** ** Version specifiers *)

Module Specifier.

Inductive operator : Type := Ge | Le | Gt | Lt | Eq | Ne.

Record clause : Type :=
  { op : operator
  ; release : list nat }.

Fixpoint split (sep : ascii) (s : string) : list string :=
  match s with
  | EmptyString => [EmptyString]
  | String c rest =>
      if Ascii.eqb c sep then EmptyString :: split sep rest
      else
        match split sep rest with
        | [] => [String c EmptyString]
        | h :: t => String c h :: t
        end
  end.

Definition digit_value (c : ascii) : nat := nat_of_ascii c - 48.

Definition parse_nat (s : string) : option nat :=
  if negb (String.eqb s "") && forallb Lexer.is_digit (list_ascii_of_string s)
  then Some (fold_left (fun acc c => 10 * acc + digit_value c)
                       (list_ascii_of_string s) 0)
  else None.

(** A release: numbers separated by dots. *)
Definition parse_release (s : string) : option (list nat) :=
  Evaluate.sequence (map parse_nat (split "." s)).

(** One clause: an operator, then a release.  Of the specifier grammar
    only the six comparisons of plain releases are covered. *)
Definition parse_clause (s : string) : option clause :=
  let with_op (o : operator) (rest : string) :=
    option_map (fun r => {| op := o; release := r |})
               (parse_release (EntryPoints.strip rest)) in
  match EntryPoints.strip s with
  | String ">" (String "=" rest) => with_op Ge rest
  | String "<" (String "=" rest) => with_op Le rest
  | String "=" (String "=" rest) => with_op Eq rest
  | String "!" (String "=" rest) => with_op Ne rest
  | String ">" rest => with_op Gt rest
  | String "<" rest => with_op Lt rest
  | _ => None
  end.

(** A specifier set: clauses separated by commas, all of which must hold. *)
Definition parse (s : string) : option (list clause) :=
  Evaluate.sequence (map parse_clause (split "," s)).

(** Releases are compared without their trailing zeros, component by
    component; a proper prefix is the smaller one. *)
Fixpoint strip_zeros (r : list nat) : list nat :=
  match r with
  | [] => []
  | n :: rest =>
      match strip_zeros rest with
      | [] => if (n =? 0)%nat then [] else [n]
      | rest' => n :: rest'
      end
  end.

Fixpoint compare_tuple (a b : list nat) : comparison :=
  match a, b with
  | [], [] => Datatypes.Eq
  | [], _ :: _ => Datatypes.Lt
  | _ :: _, [] => Datatypes.Gt
  | x :: a', y :: b' =>
      match Nat.compare x y with
      | Datatypes.Eq => compare_tuple a' b'
      | c => c
      end
  end.

Definition compare_release (a b : list nat) : comparison :=
  compare_tuple (strip_zeros a) (strip_zeros b).

Definition holds (c : clause) (v : list nat) : bool :=
  match op c, compare_release v (release c) with
  | Ge, Datatypes.Lt => false
  | Ge, _ => true
  | Le, Datatypes.Gt => false
  | Le, _ => true
  | Gt, Datatypes.Gt => true
  | Gt, _ => false
  | Lt, Datatypes.Lt => true
  | Lt, _ => false
  | Eq, Datatypes.Eq => true
  | Eq, _ => false
  | Ne, Datatypes.Eq => false
  | Ne, _ => true
  end.

Definition contains (spec : list clause) (v : list nat) : bool :=
  forallb (fun c => holds c v) spec.

(** Whether a descriptor can be installed for the language version [v]
    (the interpreter's major, minor and micro numbers); no requirement
    accepts every version. *)
Definition requires_python_ok (d : Setup.descriptor) (v : list nat) : option bool :=
  match Setup.python_requires d with
  | None => Some true
  | Some s => option_map (fun spec => contains spec v) (parse s)
  end.

End Specifier.

(** ** Syntactic checks on the manifest *)

Module Manifest.

(** The expression a keyword of the setup call is given. *)
Definition keyword (k : string) : option expr := Evaluate.assoc k setup_keywords.

Definition literal_string (e : expr) : option string :=
  match e with
  | Constant (CStr s) => Some s
  | _ => None
  end.

Definition printable (c : ascii) : bool := Lexer.between 32 126 c.

(** A well-formed string: not empty, printable characters only. *)
Definition well_formed (s : string) : bool :=
  negb (String.eqb s "") && forallb printable (list_ascii_of_string s).

Definition well_formed_literal (e : expr) : bool :=
  match literal_string e with
  | Some s => well_formed s
  | None => false
  end.

Definition scalar_fields : list string :=
  ["name"; "version"; "python_requires"; "author"; "author_email"; "license"].

(** The entries listed under the groups of an entry_points display. *)
Definition entry_point_specs (e : expr) : list expr :=
  match e with
  | DictDisplay items =>
      flat_map (fun kv =>
                  match snd kv with
                  | ListDisplay es => es
                  | other => [other]
                  end)
               items
  | _ => []
  end.

(** Every constant that occurs in an expression. *)
Fixpoint constants (e : expr) : list constant :=
  match e with
  | Constant c => [c]
  | Name _ => []
  | Attribute v _ => constants v
  | Subscript v i => constants v ++ constants i
  | ListDisplay es => flat_map constants es
  | DictDisplay items =>
      flat_map (fun kv => constants (fst kv) ++ constants (snd kv)) items
  | Call f args kws =>
      constants f ++ flat_map constants args
      ++ flat_map (fun kv => constants (snd kv)) kws
  end.

Definition is_string_constant (c : constant) : bool :=
  match c with
  | CStr _ => true
  | _ => false
  end.

Definition mem (s : string) (l : list string) : bool := existsb (String.eqb s) l.

(** The names the file binds: what it imports from setuptools. *)
Definition setuptools_names : list string := ["setup"; "find_packages"].

(** An expression that reaches nothing outside [allowed]: it is built
    from constants, displays, and calls whose callee is a plain name in
    [allowed].  Any other name, every attribute access and every subscript
    is refused, so such an expression cannot name the process environment
    or a function that reads it, by whatever route. *)
Fixpoint only_uses (allowed : list string) (e : expr) : bool :=
  match e with
  | Constant _ => true
  | Name id => mem id allowed
  | Attribute _ _ => false
  | Subscript _ _ => false
  | ListDisplay es => forallb (only_uses allowed) es
  | DictDisplay items =>
      forallb (fun kv => only_uses allowed (fst kv) && only_uses allowed (snd kv))
              items
  | Call f args kws =>
      match f with
      | Name id => mem id allowed
      | _ => false
      end
      && forallb (only_uses allowed) args
      && forallb (fun kv => only_uses allowed (snd kv)) kws
  end.

(** A statement that reaches nothing outside [allowed]: an import of
    names in [allowed] from [source], or an expression that only uses
    them.  Every other statement is refused. *)
Definition stmt_only_uses (source : string) (allowed : list string) (s : stmt)
  : bool :=
  match s with
  | ImportFrom m names =>
      String.eqb m source && forallb (fun n => mem n allowed) names
  | Expr e => only_uses allowed e
  | _ => false
  end.

(** Every identifier an expression mentions: names and attributes. *)
Fixpoint identifiers (e : expr) : list string :=
  match e with
  | Constant _ => []
  | Name id => [id]
  | Attribute v a => identifiers v ++ [a]
  | Subscript v i => identifiers v ++ identifiers i
  | ListDisplay es => flat_map identifiers es
  | DictDisplay items =>
      flat_map (fun kv => identifiers (fst kv) ++ identifiers (snd kv)) items
  | Call f args kws =>
      identifiers f ++ flat_map identifiers args
      ++ flat_map (fun kv => identifiers (snd kv)) kws
  end.

(** Every module and identifier a statement mentions. *)
Fixpoint stmt_identifiers (s : stmt) : list string :=
  match s with
  | Import ms => ms
  | ImportFrom m names => m :: names
  | Expr e => identifiers e
  | Assign t v => identifiers t ++ identifiers v
  | FunctionDef f ps body => f :: ps ++ flat_map stmt_identifiers body
  | ClassDef c body => c :: flat_map stmt_identifiers body
  | If t body orelse =>
      identifiers t ++ flat_map stmt_identifiers body
      ++ flat_map stmt_identifiers orelse
  | For t it body =>
      identifiers t ++ identifiers it ++ flat_map stmt_identifiers body
  | While t body => identifiers t ++ flat_map stmt_identifiers body
  | Try body handler =>
      flat_map stmt_identifiers body ++ flat_map stmt_identifiers handler
  end.

(** A constant without the characters that mark a variable reference in a
    shell command or a path template. *)
Definition no_variable_reference (c : constant) : bool :=
  match c with
  | CStr s => negb (existsb (Lexer.one_of "$%") (list_ascii_of_string s))
  | _ => true
  end.

(** A constant expression: a constant, or a display of constant
    expressions. *)
Fixpoint is_literal (e : expr) : bool :=
  match e with
  | Constant _ => true
  | ListDisplay es => forallb is_literal es
  | DictDisplay items => forallb (fun kv => is_literal (fst kv) && is_literal (snd kv)) items
  | _ => false
  end.

(** A module that is one import and one call of [setup] by keywords, each
    argument accepted by [arg_ok]. *)
Definition import_and_setup (arg_ok : string -> expr -> bool) (m : list stmt) : bool :=
  match m with
  | [ImportFrom _ _; Expr (Call (Name f) [] kws)] =>
      String.eqb f "setup" && forallb (fun kv => arg_ok (fst kv) (snd kv)) kws
  | _ => false
  end.

Definition constant_argument (k : string) (e : expr) : bool := is_literal e.

(** A call of [find_packages] by keywords with constant arguments. *)
Definition discovery_call (e : expr) : bool :=
  match e with
  | Call (Name f) [] kws =>
      String.eqb f "find_packages" && forallb (fun kv => is_literal (snd kv)) kws
  | _ => false
  end.

Definition declarative_argument (k : string) (e : expr) : bool :=
  is_literal e || (String.eqb k "packages" && discovery_call e).

(** The keyword arguments of the discovery call that computes [packages]. *)
Definition discovery_keywords : list (string * expr) :=
  match keyword "packages" with
  | Some (Call _ _ kws) => kws
  | _ => []
  end.

Definition literal_strings (e : expr) : option (list string) :=
  match e with
  | ListDisplay es => Evaluate.sequence (map literal_string es)
  | _ => None
  end.

(** The pattern list the discovery call passes under [k], or the
    library's default when it passes none. *)
Definition patterns (k : string) (default : list string) : list string :=
  match Evaluate.assoc k discovery_keywords with
  | None => default
  | Some e =>
      match literal_strings e with
      | Some ps => ps
      | None => []
      end
  end.

Definition exclude_patterns : list string := patterns "exclude" [].
Definition include_patterns : list string := patterns "include" Finder.default_include.

Definition filter_of (ps : list string) (name : string) : bool :=
  match Finder.build_filter ps with
  | Some f => f name
  | None => false
  end.

(** The inclusion policy the manifest states: a discovered package is
    left out when it matches an exclude pattern, and taken when it matches
    an include pattern and no exclude pattern. *)
Definition excluded : string -> bool := filter_of exclude_patterns.
Definition included (name : string) : bool :=
  filter_of include_patterns name && negb (excluded name).

(** What the walk keeps in a given build: the policy, and the library's
    own exclusions. *)
Definition kept (w : Evaluate.world) (name : string) : bool :=
  filter_of include_patterns name
  && negb (Evaluate.always_excluded w name || excluded name).

(** Giving a keyword that is present another value. *)
Definition set_keyword (k : string) (v : expr) (kws : list (string * expr))
  : list (string * expr) :=
  map (fun kv => if String.eqb (fst kv) k then (k, v) else kv) kws.

(** The module with other authorship and license texts in its calls. *)
Definition with_authorship (a m l : string) (s : stmt) : stmt :=
  match s with
  | Expr (Call f args kws) =>
      Expr (Call f args
              (set_keyword "license" (Str l)
                 (set_keyword "author_email" (Str m)
                    (set_keyword "author" (Str a) kws))))
  | other => other
  end.

End Manifest.

(** ** Two build directories *)

Module Examples.
Import Finder.

(** A source tree with the service package, documentation and tests. *)
Definition tree : dir :=
  Dir "." false
    [ Dir "glueservice" true [Dir "tests" true []; Dir "util" true []]
    ; Dir "docs" true [Dir "subpkg" true []]
    ; Dir "tests" true [Dir "unit" true []]
    ; Dir "testsuite" true []
    ; Dir "data" false [Dir "raw" true []] ].

Definition empty : dir := Dir "." false [].

(** setuptools always leaves out ez_setup and what ends in __pycache__. *)
Definition always (name : string) : bool :=
  Manifest.filter_of ["ez_setup"; "*__pycache__"] name.

Definition build : Evaluate.world :=
  {| Evaluate.root := tree; Evaluate.always_excluded := always |}.

Definition empty_build : Evaluate.world :=
  {| Evaluate.root := empty; Evaluate.always_excluded := always |}.

(** A source tree from which the service package is missing. *)
Definition without_service : dir :=
  Dir "." false
    [ Dir "docs" true [Dir "subpkg" true []]
    ; Dir "tests" true [] ].

Definition bare_build : Evaluate.world :=
  {| Evaluate.root := without_service; Evaluate.always_excluded := always |}.

End Examples.

(** ** Properties *)

(** The tree [setup_py] is the file: lexing the text gives the tokens of
    the tree. *)
Lemma setup_py_is_the_source :
  Lexer.tokenize Source.text = Some (Unparse.module_tokens setup_py).
Proof. vm_compute. reflexivity. Qed.

(** *** The walk and the filters *)

Lemma filter_everything {A : Type} (l : list A) : filter (fun _ => true) l = l.
Proof. induction l as [|a l IH]; simpl; congruence. Qed.

Lemma filter_flat_map {A B : Type} (keep : B -> bool) (f : A -> list B) (l : list A) :
  filter keep (flat_map f l) = flat_map (fun a => filter keep (f a)) l.
Proof.
  induction l as [|a l IH]; simpl; [reflexivity|].
  now rewrite filter_app, IH.
Qed.

Lemma walk_is_filtered_discovery (keep : string -> bool) (d : Finder.dir) :
  forall prefix,
    Finder.walk keep prefix d = filter keep (Finder.walk (fun _ => true) prefix d).
Proof.
  induction d as [n i subs IH] using Finder.dir_induction; intros prefix; simpl.
  rewrite filter_app, filter_everything, filter_flat_map. f_equal.
  induction IH as [|c subs Hc _ IHsubs]; simpl; [reflexivity|].
  rewrite IHsubs. f_equal.
  destruct (Finder.looks_like_package c); [apply Hc | reflexivity].
Qed.

Lemma as_strings_of_strings (ps : list string) :
  Evaluate.as_strings (Evaluate.VList (map Evaluate.VStr ps)) = Some ps.
Proof.
  unfold Evaluate.as_strings. induction ps as [|p ps IH]; simpl; [reflexivity|].
  now rewrite IH.
Qed.

Lemma manifest_discovery (w : Evaluate.world) :
  Finder.find_packages (Evaluate.always_excluded w)
    Manifest.exclude_patterns Manifest.include_patterns (Evaluate.root w)
  = Some (Finder.walk (Manifest.kept w) "" (Evaluate.root w)).
Proof. reflexivity. Qed.

Lemma authored_keywords (w : Evaluate.world) (a m l : string) :
  Evaluate.eval_keywords w ["setup"; "find_packages"]
    (Manifest.set_keyword "license" (Str l)
       (Manifest.set_keyword "author_email" (Str m)
          (Manifest.set_keyword "author" (Str a) setup_keywords)))
  = Some
      [ ("name", Evaluate.VStr "importer")
      ; ("version", Evaluate.VStr "0.1.0")
      ; ("python_requires", Evaluate.VStr ">=3")
      ; ("packages",
          Evaluate.VList
            (map Evaluate.VStr (Finder.walk (Manifest.kept w) "" (Evaluate.root w))))
      ; ("entry_points",
          Evaluate.VDict
            [ (Evaluate.VStr "console_scripts",
               Evaluate.VList [Evaluate.VStr "glueservice = glueservice.__main__:main"]) ])
      ; ("author", Evaluate.VStr a)
      ; ("author_email", Evaluate.VStr m)
      ; ("license", Evaluate.VStr l) ].
Proof. reflexivity. Qed.

Lemma run_with_authorship (w : Evaluate.world) (a m l : string) :
  Setup.run w (map (Manifest.with_authorship a m l) setup_py)
  = Some
      [ {| Setup.name := Some "importer"
         ; Setup.version := Some "0.1.0"
         ; Setup.python_requires := Some ">=3"
         ; Setup.packages := Some (Finder.walk (Manifest.kept w) "" (Evaluate.root w))
         ; Setup.entry_points :=
             Some [("console_scripts", ["glueservice = glueservice.__main__:main"])]
         ; Setup.author := Some a
         ; Setup.author_email := Some m
         ; Setup.license := Some l |} ].
Proof.
  unfold Setup.run, setup_py, setup_call.
  cbn [map Manifest.with_authorship].
  cbn [Setup.exec_all Setup.exec Setup.bind Setup.initial Setup.bound Setup.produced
       String.eqb Ascii.eqb Bool.eqb andb orb forallb existsb Setup.exports app].
  rewrite authored_keywords.
  cbn [Setup.bind].
  unfold Setup.setup.
  cbn [Evaluate.assoc String.eqb Ascii.eqb Bool.eqb Setup.optional].
  rewrite as_strings_of_strings.
  reflexivity.
Qed.

Lemma run_setup_py (w : Evaluate.world) :
  Setup.run w setup_py
  = Some
      [ {| Setup.name := Some "importer"
         ; Setup.version := Some "0.1.0"
         ; Setup.python_requires := Some ">=3"
         ; Setup.packages := Some (Finder.walk (Manifest.kept w) "" (Evaluate.root w))
         ; Setup.entry_points :=
             Some [("console_scripts", ["glueservice = glueservice.__main__:main"])]
         ; Setup.author := Some "Marco Peise"
         ; Setup.author_email := Some "mp@ise.tu-berlin.de"
         ; Setup.license := Some "MIT License" |} ].
Proof.
  exact (run_with_authorship w "Marco Peise" "mp@ise.tu-berlin.de" "MIT License").
Qed.

(** *** Patterns *)

Lemma matches_star (s : string) : Fnmatch.matches [Fnmatch.Star] s = true.
Proof. induction s as [|c s IH]; [reflexivity | exact IH]. Qed.

Lemma matches_literals (cs : list ascii) :
  forall name,
    Fnmatch.matches (map Fnmatch.Lit cs) name = true <-> name = string_of_list_ascii cs.
Proof.
  induction cs as [|c cs IH]; intros [|d rest]; simpl; try (split; congruence).
  rewrite andb_true_iff, Ascii.eqb_eq, IH. split.
  - intros [-> ->]. reflexivity.
  - intros H. injection H as -> ->. auto.
Qed.

Lemma matches_literals_star (cs : list ascii) :
  forall name,
    Fnmatch.matches (map Fnmatch.Lit cs ++ [Fnmatch.Star]) name = true
    <-> exists rest, name = (string_of_list_ascii cs ++ rest)%string.
Proof.
  induction cs as [|c cs IH]; intros name.
  - change (map Fnmatch.Lit [] ++ [Fnmatch.Star]) with [Fnmatch.Star].
    rewrite matches_star. split; [exists name; reflexivity | reflexivity].
  - destruct name as [|d rest]; simpl.
    + split; [discriminate | intros [r H]; discriminate].
    + rewrite andb_true_iff, Ascii.eqb_eq, IH. split.
      * intros [-> [r ->]]. exists r. reflexivity.
      * intros [r H]. injection H as -> ->. eauto.
Qed.

Lemma some_true_iff (b : bool) : Some b = Some true <-> b = true.
Proof. split; congruence. Qed.

Lemma fnmatchcase_docs (name : string) :
  Fnmatch.fnmatchcase name "docs" = Some true <-> name = "docs".
Proof.
  change (Fnmatch.fnmatchcase name "docs")
    with (Some (Fnmatch.matches (map Fnmatch.Lit (list_ascii_of_string "docs")) name)).
  rewrite some_true_iff.
  exact (matches_literals (list_ascii_of_string "docs") name).
Qed.

Lemma fnmatchcase_tests (name : string) :
  Fnmatch.fnmatchcase name "tests*" = Some true
  <-> exists rest, name = ("tests" ++ rest)%string.
Proof.
  change (Fnmatch.fnmatchcase name "tests*")
    with (Some (Fnmatch.matches
                  (map Fnmatch.Lit (list_ascii_of_string "tests") ++ [Fnmatch.Star]) name)).
  rewrite some_true_iff.
  exact (matches_literals_star (list_ascii_of_string "tests") name).
Qed.

Lemma excluded_unfold (name : string) :
  Manifest.excluded name
  = match Fnmatch.fnmatchcase name "docs", Fnmatch.fnmatchcase name "tests*" with
    | Some a, Some b => a || b
    | _, _ => false
    end.
Proof.
  change (Manifest.excluded name)
    with (Fnmatch.matches (map Fnmatch.Lit (list_ascii_of_string "docs")) name
          || (Fnmatch.matches
                (map Fnmatch.Lit (list_ascii_of_string "tests") ++ [Fnmatch.Star]) name
              || false)).
  rewrite orb_false_r. reflexivity.
Qed.

Lemma excluded_iff (name : string) :
  Manifest.excluded name = true
  <-> name = "docs" \/ Fnmatch.fnmatchcase name "tests*" = Some true.
Proof.
  rewrite excluded_unfold, <- fnmatchcase_docs.
  change (Fnmatch.fnmatchcase name "docs")
    with (Some (Fnmatch.matches (map Fnmatch.Lit (list_ascii_of_string "docs")) name)).
  change (Fnmatch.fnmatchcase name "tests*")
    with (Some (Fnmatch.matches
                  (map Fnmatch.Lit (list_ascii_of_string "tests") ++ [Fnmatch.Star]) name)).
  rewrite !some_true_iff. apply orb_true_iff.
Qed.

Lemma include_everything (name : string) :
  Manifest.filter_of Manifest.include_patterns name = true.
Proof.
  change (Manifest.filter_of Manifest.include_patterns name)
    with (Fnmatch.matches [Fnmatch.Star] name || false).
  now rewrite matches_star.
Qed.

Lemma included_unless_excluded (name : string) :
  Manifest.included name = negb (Manifest.excluded name).
Proof. unfold Manifest.included. now rewrite include_everything. Qed.

(** *** The claims *)

(** C1: the manifest registers exactly one console command; its name is
    "glueservice" and its target is [glueservice.__main__:main].  The
    entry_points argument has the single group console_scripts with the
    single entry, and in every build the descriptor's console commands are
    that one command. *)
Theorem C1_single_console_command :
  Manifest.keyword "entry_points"
  = Some (DictDisplay
            [ (Str "console_scripts",
               ListDisplay [Str "glueservice = glueservice.__main__:main"]) ])
  /\ forall w : Evaluate.world,
       exists d,
         Setup.run w setup_py = Some [d]
         /\ Setup.entry_points d
            = Some [("console_scripts", ["glueservice = glueservice.__main__:main"])]
         /\ EntryPoints.console_scripts d
            = Some [ {| EntryPoints.command := "glueservice"
                      ; EntryPoints.module := "glueservice.__main__"
                      ; EntryPoints.attr := Some "main" |} ].
Proof.
  split; [reflexivity|].
  intros w. eexists. split; [apply run_setup_py|].
  split; reflexivity.
Qed.

(** C2: the name field of the manifest is the string "importer", in the
    text of the call and in the descriptor of every build. *)
Theorem C2_package_name :
  Manifest.keyword "name" = Some (Str "importer")
  /\ forall w : Evaluate.world,
       exists d, Setup.run w setup_py = Some [d] /\ Setup.name d = Some "importer".
Proof.
  split; [reflexivity|].
  intros w. eexists. split; [apply run_setup_py | reflexivity].
Qed.

(** C3: the inclusion policy of the manifest leaves a package name out
    exactly when the name is "docs" or matches the pattern "tests*" (that
    is, begins with "tests"), and takes every other name; in every build,
    the packages of the descriptor are the discovered packages that the
    policy takes (and that the library does not leave out on its own
    account). *)
Theorem C3_exclusion_policy :
  forall name : string,
    (Manifest.excluded name = true
     <-> name = "docs" \/ Fnmatch.fnmatchcase name "tests*" = Some true)
    /\ (Fnmatch.fnmatchcase name "tests*" = Some true
        <-> exists rest, name = ("tests" ++ rest)%string)
    /\ Manifest.included name = negb (Manifest.excluded name)
    /\ forall w : Evaluate.world,
         exists d ps,
           Setup.run w setup_py = Some [d]
           /\ Setup.packages d = Some ps
           /\ (In name ps
               <-> In name (Finder.discovered (Evaluate.root w))
                   /\ Evaluate.always_excluded w name = false
                   /\ Manifest.included name = true).
Proof.
  intros name. split; [apply excluded_iff|].
  split; [apply fnmatchcase_tests|].
  split; [apply included_unless_excluded|].
  intros w. do 2 eexists. split; [apply run_setup_py|].
  split; [reflexivity|].
  rewrite walk_is_filtered_discovery, filter_In.
  unfold Finder.discovered, Manifest.kept, Manifest.included.
  rewrite include_everything. simpl andb.
  rewrite negb_true_iff, orb_false_iff, negb_true_iff. tauto.
Qed.

(** C4: the version field is the string "0.1.0", which reads as the three
    numbers 0, 1 and 0, and the language requirement field is the string
    ">=3". *)
Theorem C4_version_and_requirement :
  Manifest.keyword "version" = Some (Str "0.1.0")
  /\ Manifest.keyword "python_requires" = Some (Str ">=3")
  /\ Specifier.parse_release "0.1.0" = Some [0; 1; 0]
  /\ forall w : Evaluate.world,
       exists d,
         Setup.run w setup_py = Some [d]
         /\ Setup.version d = Some "0.1.0"
         /\ Setup.python_requires d = Some ">=3".
Proof.
  repeat (split; [reflexivity|]).
  intros w. eexists. split; [apply run_setup_py|]. split; reflexivity.
Qed.

(** C5: each of name, version, python_requires, author, author_email and
    license is given a well-formed string literal, the entry_points
    argument lists a single entry and it is a well-formed string literal,
    and no constant of another type occurs anywhere in the call. *)
Theorem C5_fields_are_strings :
  forallb (fun k =>
             match Manifest.keyword k with
             | Some e => Manifest.well_formed_literal e
             | None => false
             end)
          Manifest.scalar_fields = true
  /\ (exists spec,
        option_map Manifest.entry_point_specs (Manifest.keyword "entry_points")
        = Some [Str spec]
        /\ Manifest.well_formed spec = true)
  /\ forallb Manifest.is_string_constant (Manifest.constants setup_call) = true.
Proof.
  split; [reflexivity|]. split; [|reflexivity].
  eexists. split; reflexivity.
Qed.

(** An expression that only uses [allowed] mentions no identifier outside
    [allowed], however it is nested. *)
Lemma only_uses_bounds_identifiers (allowed : list string) :
  forall e : expr,
    Manifest.only_uses allowed e = true ->
    forallb (fun x => Manifest.mem x allowed) (Manifest.identifiers e) = true.
Proof.
  fix IH 1.
  intros [c|id|v a|v i|es|items|f args kws] H; cbn [Manifest.only_uses Manifest.identifiers] in *.
  - reflexivity.
  - cbn. now rewrite H.
  - discriminate.
  - discriminate.
  - induction es as [|e es IHes]; [reflexivity|].
    cbn [forallb flat_map] in *. apply andb_true_iff in H as [He Hes].
    rewrite forallb_app, (IH e He), (IHes Hes). reflexivity.
  - induction items as [|[k v] items IHitems]; [reflexivity|].
    cbn [forallb flat_map fst snd] in *.
    apply andb_true_iff in H as [Hkv Hitems].
    apply andb_true_iff in Hkv as [Hk Hv].
    rewrite !forallb_app, (IH k Hk), (IH v Hv), (IHitems Hitems). reflexivity.
  - apply andb_true_iff in H as [H Hkws]. apply andb_true_iff in H as [Hf Hargs].
    rewrite !forallb_app. repeat (apply andb_true_iff; split).
    + destruct f; try discriminate. cbn. now rewrite Hf.
    + clear Hf Hkws. induction args as [|e args IHargs]; [reflexivity|].
      cbn [forallb flat_map] in *. apply andb_true_iff in Hargs as [He Hargs].
      rewrite forallb_app, (IH e He), (IHargs Hargs). reflexivity.
    + clear Hf Hargs. induction kws as [|[k v] kws IHkws]; [reflexivity|].
      cbn [forallb flat_map snd] in *. apply andb_true_iff in Hkws as [Hv Hkws].
      rewrite forallb_app, (IH v Hv), (IHkws Hkws). reflexivity.
Qed.

(** C6: the manifest declares no environment variable, and no argument of
    the setup call refers to one.  The file imports setup and
    find_packages from setuptools and nothing else; its statements, and so
    every argument of the setup call, are built from constants, displays
    and calls of these two names only, with no other name, no attribute
    access and no subscript; the identifiers it mentions are setuptools,
    setup and find_packages; no string constant holds a variable
    reference; and the keywords are the eight metadata fields of the setup
    call and the exclude list of the discovery call. *)
Theorem C6_no_environment_variables :
  forallb (Manifest.stmt_only_uses "setuptools" Manifest.setuptools_names) setup_py
  = true
  /\ forallb (fun kv => Manifest.only_uses Manifest.setuptools_names (snd kv))
             setup_keywords = true
  /\ flat_map Manifest.stmt_identifiers setup_py
     = ["setuptools"; "setup"; "find_packages"; "setup"; "find_packages"]
  /\ forallb Manifest.no_variable_reference (Manifest.constants setup_call) = true
  /\ map fst setup_keywords
     = ["name"; "version"; "python_requires"; "packages"; "entry_points";
        "author"; "author_email"; "license"]
  /\ map fst Manifest.discovery_keywords = ["exclude"].
Proof. repeat split. Qed.

(** C7, as stated, fails: the argument given to [packages] is not a
    constant but a call of [find_packages], and what it yields changes
    with the build directory. *)
Lemma C7_packages_argument_is_computed :
  Manifest.import_and_setup Manifest.constant_argument setup_py = false
  /\ (exists e, Manifest.keyword "packages" = Some e /\ Manifest.is_literal e = false)
  /\ exists d1 d2,
       Setup.run Examples.build setup_py = Some [d1]
       /\ Setup.run Examples.empty_build setup_py = Some [d2]
       /\ Setup.packages d1 <> Setup.packages d2.
Proof.
  split; [reflexivity|]. split.
  - eexists. split; reflexivity.
  - do 2 eexists. split; [reflexivity|]. split; [reflexivity|]. discriminate.
Qed.

(** C7, amended: the file is 18 lines that hold one import statement and
    one setup call and nothing else; every argument of the call is a
    constant, except that [packages] is a call of the imported
    [find_packages] whose own argument is a constant. *)
Theorem C7_declarative_metadata_only :
  List.length Source.lines = 18
  /\ Lexer.tokenize Source.text = Some (Unparse.module_tokens setup_py)
  /\ Manifest.import_and_setup Manifest.declarative_argument setup_py = true
  /\ forallb (fun kv => Manifest.is_literal (snd kv) || String.eqb (fst kv) "packages")
             setup_keywords = true
  /\ option_map Manifest.discovery_call (Manifest.keyword "packages") = Some true.
Proof.
  split; [reflexivity|]. split; [apply setup_py_is_the_source|].
  repeat split.
Qed.

(** C8: the author, author_email and license fields are the strings
    "Marco Peise", "mp@ise.tu-berlin.de" and "MIT License"; with any other
    three strings in their place the descriptor of a build differs in
    these three fields only, and the console commands and the language
    versions it accepts are the same. *)
Theorem C8_authorship_has_no_effect :
  Manifest.keyword "author" = Some (Str "Marco Peise")
  /\ Manifest.keyword "author_email" = Some (Str "mp@ise.tu-berlin.de")
  /\ Manifest.keyword "license" = Some (Str "MIT License")
  /\ forall (w : Evaluate.world) (a m l : string),
       exists d d',
         Setup.run w setup_py = Some [d]
         /\ Setup.run w (map (Manifest.with_authorship a m l) setup_py) = Some [d']
         /\ Setup.author d' = Some a
         /\ Setup.author_email d' = Some m
         /\ Setup.license d' = Some l
         /\ Setup.name d' = Setup.name d
         /\ Setup.version d' = Setup.version d
         /\ Setup.python_requires d' = Setup.python_requires d
         /\ Setup.packages d' = Setup.packages d
         /\ Setup.entry_points d' = Setup.entry_points d
         /\ EntryPoints.console_scripts d' = EntryPoints.console_scripts d
         /\ forall v, Specifier.requires_python_ok d' v = Specifier.requires_python_ok d v.
Proof.
  repeat (split; [reflexivity|]).
  intros w a m l. do 2 eexists.
  split; [apply run_setup_py|]. split; [apply run_with_authorship|].
  repeat (split; [reflexivity|]). reflexivity.
Qed.

(** C9: the discovery call is given exactly the exclude list "docs",
    "tests*".  A package named "tests" is left out, since the pattern
    "tests*" matches "tests" itself; "docs.subpkg" is not left out, since
    the pattern "docs" matches the name "docs" only.  In the example
    build, which has both, docs.subpkg is among the packages while docs
    and tests are not. *)
Theorem C9_exclusion_list :
  Evaluate.assoc "exclude" Manifest.discovery_keywords
  = Some (ListDisplay [Str "docs"; Str "tests*"])
  /\ Manifest.exclude_patterns = ["docs"; "tests*"]
  /\ Fnmatch.fnmatchcase "tests" "tests*" = Some true
  /\ Manifest.excluded "tests" = true
  /\ (forall name, Fnmatch.fnmatchcase name "docs" = Some true <-> name = "docs")
  /\ Manifest.excluded "docs.subpkg" = false
  /\ Manifest.included "docs.subpkg" = true
  /\ exists d ps,
       Setup.run Examples.build setup_py = Some [d]
       /\ Setup.packages d = Some ps
       /\ Manifest.mem "docs.subpkg" ps = true
       /\ Manifest.mem "docs" ps = false
       /\ Manifest.mem "tests" ps = false
       /\ Manifest.mem "docs" (Finder.discovered Examples.tree) = true
       /\ Manifest.mem "tests" (Finder.discovered Examples.tree) = true.
Proof.
  repeat (split; [reflexivity|]).
  split; [apply fnmatchcase_docs|].
  repeat (split; [reflexivity|]).
  do 2 eexists. repeat (split; [reflexivity|]). reflexivity.
Qed.

Lemma strip_zeros_cons (n : nat) (rest : list nat) :
  Specifier.strip_zeros (n :: rest)
  = match Specifier.strip_zeros rest with
    | [] => if (n =? 0)%nat then [] else [n]
    | rest' => n :: rest'
    end.
Proof. reflexivity. Qed.

Lemma at_least_3 (major : nat) (rest : list nat) :
  Specifier.holds {| Specifier.op := Specifier.Ge; Specifier.release := [3] |}
                  (major :: rest)
  = (3 <=? major)%nat.
Proof.
  unfold Specifier.holds, Specifier.compare_release.
  cbn [Specifier.op Specifier.release].
  change (Specifier.strip_zeros [3]) with [3].
  rewrite strip_zeros_cons.
  destruct (Specifier.strip_zeros rest) as [|r rs].
  - destruct (Nat.eqb_spec major 0) as [->|Hne]; [reflexivity|].
    cbn [Specifier.compare_tuple].
    destruct (Nat.compare_spec major 3) as [->|Hlt|Hgt]; [reflexivity| |].
    + symmetry. apply Nat.leb_gt. exact Hlt.
    + symmetry. apply Nat.leb_le. lia.
  - cbn [Specifier.compare_tuple].
    destruct (Nat.compare_spec major 3) as [->|Hlt|Hgt]; [reflexivity| |].
    + symmetry. apply Nat.leb_gt. exact Hlt.
    + symmetry. apply Nat.leb_le. lia.
Qed.

(** C10: the requirement ">=3" is the single clause "at least 3", with no
    upper bound and no constraint on the minor number: in every build the
    descriptor accepts a language version exactly when its major number
    is at least 3, whatever its further numbers; 3.0 is accepted. *)
Theorem C10_requirement_is_major_at_least_3 :
  Specifier.parse ">=3"
  = Some [ {| Specifier.op := Specifier.Ge; Specifier.release := [3] |} ]
  /\ forall w : Evaluate.world,
       exists d,
         Setup.run w setup_py = Some [d]
         /\ Setup.python_requires d = Some ">=3"
         /\ Specifier.requires_python_ok d [3; 0] = Some true
         /\ forall (major : nat) (rest : list nat),
              Specifier.requires_python_ok d (major :: rest) = Some (3 <=? major)%nat.
Proof.
  split; [reflexivity|].
  intros w. eexists. split; [apply run_setup_py|].
  split; [reflexivity|]. split; [reflexivity|].
  intros major rest.
  unfold Specifier.requires_python_ok. cbn [Setup.python_requires].
  change (Specifier.parse ">=3")
    with (Some [ {| Specifier.op := Specifier.Ge; Specifier.release := [3] |} ]).
  cbn [option_map Specifier.contains forallb].
  now rewrite at_least_3, andb_true_r.
Qed.

(** *** Dotted names and the exclude list *)

Lemma has_dot_cons (c : ascii) (s : string) :
  Finder.has_dot (String c s) = Ascii.eqb "." c || Finder.has_dot s.
Proof. reflexivity. Qed.

Lemma has_dot_dotted (parent sub : string) :
  Finder.has_dot (parent ++ "." ++ sub)%string = true.
Proof.
  induction parent as [|c parent IH].
  - reflexivity.
  - change (String c parent ++ "." ++ sub)%string
      with (String c (parent ++ "." ++ sub)%string).
    now rewrite has_dot_cons, IH, orb_true_r.
Qed.

(** A dotted name that begins with a text without dots has that text at
    the beginning of its parent. *)
Lemma prefix_of_dotted (lit : string) :
  forall parent sub rest : string,
    Finder.has_dot lit = false ->
    (parent ++ "." ++ sub)%string = (lit ++ rest)%string ->
    exists r, parent = (lit ++ r)%string.
Proof.
  induction lit as [|c lit IH]; intros parent sub rest Hdot Heq.
  - exists parent. reflexivity.
  - rewrite has_dot_cons in Hdot. apply orb_false_iff in Hdot as [Hc Hlit].
    destruct parent as [|a parent].
    + injection Heq as Hdotc _. subst c. discriminate Hc.
    + injection Heq as -> Heq.
      destruct (IH parent sub rest Hlit Heq) as [r ->].
      exists r. reflexivity.
Qed.

Lemma fnmatchcase_tests_false (name : string) :
  Fnmatch.fnmatchcase name "tests*" = Some false
  <-> ~ exists rest, name = ("tests" ++ rest)%string.
Proof.
  rewrite <- fnmatchcase_tests.
  change (Fnmatch.fnmatchcase name "tests*")
    with (Some (Fnmatch.matches
                  (map Fnmatch.Lit (list_ascii_of_string "tests") ++ [Fnmatch.Star]) name)).
  destruct (Fnmatch.matches _ name); split; intros H; congruence.
Qed.

Lemma excluded_false_iff (name : string) :
  Manifest.excluded name = false
  <-> name <> "docs" /\ Fnmatch.fnmatchcase name "tests*" = Some false.
Proof.
  rewrite fnmatchcase_tests_false, <- fnmatchcase_tests.
  rewrite <- not_true_iff_false, excluded_iff. tauto.
Qed.

Lemma dotted_not_excluded (parent sub : string) :
  Fnmatch.fnmatchcase parent "tests*" = Some false ->
  Manifest.excluded (parent ++ "." ++ sub)%string = false.
Proof.
  intros Hparent. apply excluded_false_iff. split.
  - intros Heq. pose proof (has_dot_dotted parent sub) as Hdot.
    rewrite Heq in Hdot. discriminate Hdot.
  - apply fnmatchcase_tests_false. intros [rest Heq].
    apply fnmatchcase_tests_false in Hparent. apply Hparent.
    apply (prefix_of_dotted "tests" parent sub rest); [reflexivity | exact Heq].
Qed.

(** X1: the exclude list is matched against the whole dotted name, so it
    does not reach below a parent that does not itself match "tests*": a
    name [parent.sub] with such a parent is not left out and is taken by
    the policy, whatever [sub] is -- a nested package named tests, or a
    subpackage of docs. *)
Theorem X1_nested_names_are_not_excluded :
  forall parent sub : string,
    Fnmatch.fnmatchcase parent "tests*" = Some false ->
    Manifest.excluded (parent ++ "." ++ sub)%string = false
    /\ Manifest.included (parent ++ "." ++ sub)%string = true.
Proof.
  intros parent sub Hparent.
  pose proof (dotted_not_excluded parent sub Hparent) as Hex.
  split; [exact Hex|].
  now rewrite included_unless_excluded, Hex.
Qed.

Lemma X1_nested_tests_witness :
  Manifest.excluded "glueservice.tests" = false
  /\ Manifest.included "glueservice.tests" = true.
Proof.
  apply (X1_nested_names_are_not_excluded "glueservice" "tests"). reflexivity.
Defined.

(** *** Where the walk finds a package *)

Lemma walk_unfold (keep : string -> bool) (prefix n : string) (i : bool)
    (subs : list Finder.dir) :
  Finder.walk keep prefix (Finder.Dir n i subs)
  = filter keep
      (map (fun c => Finder.qualify prefix (Finder.dir_name c))
           (filter Finder.looks_like_package subs))
    ++ flat_map
         (fun c =>
            if Finder.looks_like_package c
            then Finder.walk keep (Finder.qualify prefix (Finder.dir_name c)) c
            else [])
         subs.
Proof. reflexivity. Qed.

(** A package directory directly below the directory walked is yielded
    when the filter keeps its name. *)
Lemma walk_child (keep : string -> bool) (prefix n : string) (i : bool)
    (subs : list Finder.dir) (c : Finder.dir) :
  In c subs ->
  Finder.looks_like_package c = true ->
  keep (Finder.qualify prefix (Finder.dir_name c)) = true ->
  In (Finder.qualify prefix (Finder.dir_name c))
     (Finder.walk keep prefix (Finder.Dir n i subs)).
Proof.
  intros Hin Hpkg Hkeep. rewrite walk_unfold. apply in_or_app. left.
  apply filter_In. split; [|exact Hkeep].
  apply in_map_iff. exists c. split; [reflexivity|].
  apply filter_In. split; assumption.
Qed.

(** What the walk of a package directory yields is yielded by the walk of
    its parent, whether or not the package itself is kept. *)
Lemma walk_descend (keep : string -> bool) (prefix n : string) (i : bool)
    (subs : list Finder.dir) (c : Finder.dir) (name : string) :
  In c subs ->
  Finder.looks_like_package c = true ->
  In name (Finder.walk keep (Finder.qualify prefix (Finder.dir_name c)) c) ->
  In name (Finder.walk keep prefix (Finder.Dir n i subs)).
Proof.
  intros Hin Hpkg Hname. rewrite walk_unfold. apply in_or_app. right.
  apply in_flat_map. exists c. split; [exact Hin|].
  now rewrite Hpkg.
Qed.

Lemma looks_like_package_init (n : string) (subs : list Finder.dir) :
  Finder.has_dot n = false ->
  Finder.looks_like_package (Finder.Dir n true subs) = true.
Proof.
  intros H. unfold Finder.looks_like_package.
  cbn [Finder.dir_name Finder.has_init]. now rewrite H.
Qed.

Lemma qualify_nonempty (prefix name : string) :
  prefix <> "" -> Finder.qualify prefix name = (prefix ++ "." ++ name)%string.
Proof. destruct prefix; [congruence | reflexivity]. Qed.

Lemma kept_iff (w : Evaluate.world) (name : string) :
  Manifest.kept w name = true
  <-> Evaluate.always_excluded w name = false /\ Manifest.excluded name = false.
Proof.
  unfold Manifest.kept. rewrite include_everything. cbn [andb].
  now rewrite negb_true_iff, orb_false_iff.
Qed.

Lemma docs_is_never_a_package (w : Evaluate.world) :
  ~ In "docs" (Finder.walk (Manifest.kept w) "" (Evaluate.root w)).
Proof.
  rewrite walk_is_filtered_discovery, filter_In, kept_iff.
  intros [_ [_ H]]. discriminate H.
Qed.

(** X2: in every build, a package directory [s] inside a top-level package
    directory [p] whose name does not match "tests*" is among the packages
    of the descriptor as [p.s] (unless the library leaves that name out
    itself), while "docs" never is: the subpackages of docs and nested
    tests packages are shipped, the first without their parent. *)
Theorem X2_second_level_packages_are_shipped :
  forall (w : Evaluate.world) (rn : string) (ri : bool) (tops : list Finder.dir)
         (p s : string) (psubs ssubs : list Finder.dir),
    Evaluate.root w = Finder.Dir rn ri tops ->
    In (Finder.Dir p true psubs) tops ->
    In (Finder.Dir s true ssubs) psubs ->
    p <> "" ->
    Finder.has_dot p = false ->
    Finder.has_dot s = false ->
    Fnmatch.fnmatchcase p "tests*" = Some false ->
    Evaluate.always_excluded w (p ++ "." ++ s)%string = false ->
    exists d ps,
      Setup.run w setup_py = Some [d]
      /\ Setup.packages d = Some ps
      /\ In (p ++ "." ++ s)%string ps
      /\ ~ In "docs" ps.
Proof.
  intros w rn ri tops p s psubs ssubs Hroot Hp Hs Hne Hdotp Hdots Htests Hlib.
  do 2 eexists. split; [apply run_setup_py|]. split; [reflexivity|].
  split; [|apply docs_is_never_a_package].
  rewrite Hroot.
  apply (walk_descend _ "" rn ri tops (Finder.Dir p true psubs));
    [exact Hp | now apply looks_like_package_init |].
  change (Finder.qualify "" (Finder.dir_name (Finder.Dir p true psubs))) with p.
  rewrite <- (qualify_nonempty p s Hne).
  apply (walk_child _ p p true psubs (Finder.Dir s true ssubs));
    [exact Hs | now apply looks_like_package_init |].
  change (Finder.dir_name (Finder.Dir s true ssubs)) with s.
  rewrite (qualify_nonempty p s Hne).
  apply kept_iff. split; [exact Hlib|].
  now apply dotted_not_excluded.
Qed.

Lemma X2_docs_subpackage_witness :
  exists d ps,
    Setup.run Examples.build setup_py = Some [d]
    /\ Setup.packages d = Some ps
    /\ In "docs.subpkg" ps
    /\ ~ In "docs" ps.
Proof.
  eapply (X2_second_level_packages_are_shipped Examples.build)
    with (p := "docs") (s := "subpkg").
  - reflexivity.
  - cbn. right. left. reflexivity.
  - cbn. left. reflexivity.
  - discriminate.
  - reflexivity.
  - reflexivity.
  - reflexivity.
  - reflexivity.
Defined.

(** X3: in every build whose directory has a package directory named
    glueservice, that package is among the packages of the descriptor
    (unless the library leaves the name out itself), and it is the package
    of the module the console command calls: the exclude list does not
    cut off the command's own code. *)
Theorem X3_console_command_package_is_shipped :
  forall (w : Evaluate.world) (rn : string) (ri : bool)
         (tops subs : list Finder.dir),
    Evaluate.root w = Finder.Dir rn ri tops ->
    In (Finder.Dir "glueservice" true subs) tops ->
    Evaluate.always_excluded w "glueservice" = false ->
    exists d ps ep rest,
      Setup.run w setup_py = Some [d]
      /\ Setup.packages d = Some ps
      /\ EntryPoints.console_scripts d = Some [ep]
      /\ EntryPoints.partition "." (EntryPoints.module ep) = Some ("glueservice", rest)
      /\ In "glueservice" ps.
Proof.
  intros w rn ri tops subs Hroot Hin Hlib.
  do 2 eexists.
  exists {| EntryPoints.command := "glueservice"
          ; EntryPoints.module := "glueservice.__main__"
          ; EntryPoints.attr := Some "main" |}, "__main__".
  split; [apply run_setup_py|].
  split; [reflexivity|]. split; [reflexivity|]. split; [reflexivity|].
  rewrite Hroot.
  apply (walk_child _ "" rn ri tops (Finder.Dir "glueservice" true subs));
    [exact Hin | reflexivity |].
  apply kept_iff. split; [exact Hlib | reflexivity].
Qed.

Lemma X3_example_build_witness :
  exists d ps ep rest,
    Setup.run Examples.build setup_py = Some [d]
    /\ Setup.packages d = Some ps
    /\ EntryPoints.console_scripts d = Some [ep]
    /\ EntryPoints.partition "." (EntryPoints.module ep) = Some ("glueservice", rest)
    /\ In "glueservice" ps.
Proof.
  eapply (X3_console_command_package_is_shipped Examples.build).
  - reflexivity.
  - cbn. left. reflexivity.
  - reflexivity.
Defined.

(** *** Names below a directory *)

Lemma dotted_assoc (a b c : string) :
  ((a ++ "." ++ b) ++ "." ++ c)%string = (a ++ "." ++ (b ++ "." ++ c))%string.
Proof.
  induction a as [|x a IH]; cbn [append].
  - reflexivity.
  - f_equal. exact IH.
Qed.

(** Every name the walk of a directory yields is the name of that
    directory followed by a dot and a further part. *)
Lemma walk_names_extend_prefix (keep : string -> bool) (d : Finder.dir) :
  forall (prefix name : string),
    prefix <> "" ->
    In name (Finder.walk keep prefix d) ->
    exists r, name = (prefix ++ "." ++ r)%string.
Proof.
  induction d as [n i subs IH] using Finder.dir_induction.
  intros prefix name Hne Hin. rewrite walk_unfold in Hin.
  apply in_app_or in Hin as [Hin|Hin].
  - apply filter_In in Hin as [Hin _].
    apply in_map_iff in Hin as [c [<- _]].
    rewrite (qualify_nonempty _ _ Hne). eexists. reflexivity.
  - apply in_flat_map in Hin as [c [Hc Hin]].
    destruct (Finder.looks_like_package c); [|contradiction].
    rewrite Forall_forall in IH.
    rewrite (qualify_nonempty _ _ Hne) in Hin.
    destruct (IH c Hc (prefix ++ "." ++ Finder.dir_name c)%string name)
      as [r ->]; [ | exact Hin | ].
    + destruct prefix; [congruence | discriminate].
    + rewrite dotted_assoc. eexists. reflexivity.
Qed.

Lemma tests_prefix_extends (p r : string) :
  Fnmatch.fnmatchcase p "tests*" = Some true ->
  Fnmatch.fnmatchcase (p ++ r)%string "tests*" = Some true.
Proof.
  rewrite !fnmatchcase_tests. intros [rest ->].
  exists (rest ++ r)%string.
  reflexivity.
Qed.

(** X4: the pattern "tests*" removes a whole tree: in every build, a
    directory whose dotted name [p] matches it (a top-level directory named
    tests, say) is not among the packages of the descriptor, and neither
    is any package the walk finds below it. *)
Theorem X4_tests_trees_are_left_out :
  forall (w : Evaluate.world) (p : string) (pi : bool) (psubs : list Finder.dir)
         (name : string),
    p <> "" ->
    Fnmatch.fnmatchcase p "tests*" = Some true ->
    In name (p :: Finder.walk (fun _ => true) p (Finder.Dir p pi psubs)) ->
    exists d ps,
      Setup.run w setup_py = Some [d]
      /\ Setup.packages d = Some ps
      /\ ~ In name ps.
Proof.
  intros w p pi psubs name Hne Htests Hname.
  do 2 eexists. split; [apply run_setup_py|]. split; [reflexivity|].
  rewrite walk_is_filtered_discovery, filter_In, kept_iff.
  intros [_ [_ Hex]].
  apply not_true_iff_false in Hex. apply Hex. apply excluded_iff. right.
  destruct Hname as [<-|Hname]; [exact Htests|].
  apply walk_names_extend_prefix in Hname as [r ->]; [|exact Hne].
  now apply tests_prefix_extends.
Qed.

Lemma X4_tests_unit_witness :
  exists d ps,
    Setup.run Examples.build setup_py = Some [d]
    /\ Setup.packages d = Some ps
    /\ ~ In "tests.unit" ps.
Proof.
  apply (X4_tests_trees_are_left_out Examples.build "tests" true
           [Finder.Dir "unit" true []] "tests.unit").
  - discriminate.
  - reflexivity.
  - cbn. right. left. reflexivity.
Defined.

(** *** Top-level names *)

(** A name without a dot that the walk from the build directory yields is
    the name of one of its top-level directories. *)
Lemma undotted_names_are_top_level (keep : string -> bool) (rn : string)
    (ri : bool) (tops : list Finder.dir) (name : string) :
  Forall (fun c => Finder.dir_name c <> "") tops ->
  Finder.has_dot name = false ->
  In name (Finder.walk keep "" (Finder.Dir rn ri tops)) ->
  exists c, In c tops /\ Finder.dir_name c = name.
Proof.
  intros Hnames Hdot Hin. rewrite walk_unfold in Hin.
  apply in_app_or in Hin as [Hin|Hin].
  - apply filter_In in Hin as [Hin _].
    apply in_map_iff in Hin as [c [Heq Hc]].
    apply filter_In in Hc as [Hc _].
    exists c. split; [exact Hc | exact Heq].
  - apply in_flat_map in Hin as [c [Hc Hin]].
    destruct (Finder.looks_like_package c); [|contradiction].
    rewrite Forall_forall in Hnames.
    apply walk_names_extend_prefix in Hin as [r ->]; [|exact (Hnames c Hc)].
    change (Finder.qualify "" (Finder.dir_name c)) with (Finder.dir_name c) in Hdot.
    now rewrite has_dot_dotted in Hdot.
Qed.

(** X5: the console command does not depend on the packages: in every
    build whose directory has no top-level directory named glueservice,
    the descriptor still registers the command glueservice although no
    package glueservice is shipped with it. *)
Theorem X5_command_is_registered_without_its_package :
  forall (w : Evaluate.world) (rn : string) (ri : bool) (tops : list Finder.dir),
    Evaluate.root w = Finder.Dir rn ri tops ->
    Forall (fun c => Finder.dir_name c <> "" /\ Finder.dir_name c <> "glueservice")
           tops ->
    exists d ps ep,
      Setup.run w setup_py = Some [d]
      /\ Setup.packages d = Some ps
      /\ EntryPoints.console_scripts d = Some [ep]
      /\ EntryPoints.command ep = "glueservice"
      /\ EntryPoints.module ep = "glueservice.__main__"
      /\ ~ In "glueservice" ps.
Proof.
  intros w rn ri tops Hroot Hnames.
  do 2 eexists.
  exists {| EntryPoints.command := "glueservice"
          ; EntryPoints.module := "glueservice.__main__"
          ; EntryPoints.attr := Some "main" |}.
  split; [apply run_setup_py|].
  do 4 (split; [reflexivity|]).
  rewrite Hroot. intros Hin.
  apply undotted_names_are_top_level in Hin as [c [Hc Hname]]; [ | | reflexivity].
  - rewrite Forall_forall in Hnames. now destruct (Hnames c Hc).
  - eapply Forall_impl; [|exact Hnames]. intros c [H _]. exact H.
Qed.

Lemma X5_bare_build_witness :
  exists d ps ep,
    Setup.run Examples.bare_build setup_py = Some [d]
    /\ Setup.packages d = Some ps
    /\ EntryPoints.console_scripts d = Some [ep]
    /\ EntryPoints.command ep = "glueservice"
    /\ EntryPoints.module ep = "glueservice.__main__"
    /\ ~ In "glueservice" ps.
Proof.
  eapply (X5_command_is_registered_without_its_package Examples.bare_build).
  - reflexivity.
  - repeat constructor; discriminate.
Defined.
